(** * site2skill: path mapping and path sanitisation

    A shallow embedding of [site2skill/utils.py] ([sanitize_path],
    [html_to_md_path]), of the part of the conversion loop of
    [site2skill/main.py] that rebuilds the source URL of a crawled file
    and computes where its Markdown file is written, of the path
    computations of [site2skill/generate_skill_structure.py] and of
    the pipeline written out in [test_integration.py], together with
    the properties the specification states about them and further
    properties of the code.

    Conventions.
    - A Python [str] is a [string]; a character is an [ascii].  The
      code distinguishes the characters of [[a-zA-Z0-9._-]], the
      separator and the characters of [".html"]; it treats every other
      character alike.
    - The platform is POSIX: [os.sep] is ["/"] and [os.path.join] is
      [posixpath.join].
    - A relative path is the [str] the code handles; its segments are
      what [str.split(os.sep)] returns, exactly as [sanitize_path]
      computes them. *)

From Stdlib Require Import Strings.String Strings.Ascii Lists.List.
From Stdlib Require Import Bool.Bool Arith.Arith micromega.Lia.
Import ListNotations.

Local Open Scope list_scope.
Local Open Scope string_scope.

(** ** The [str] operations the source uses *)

Module PyStr.

(** [bool(s)]: a string is true when it is not empty. *)
Definition truthy (s : string) : bool :=
  match s with
  | EmptyString => false
  | String _ _ => true
  end.

(** [s.endswith(suffix)]: the last [len(suffix)] characters of [s]
    are compared with [suffix]; a suffix longer than [s] never
    matches. *)
Definition endswith (s suffix : string) : bool :=
  let n := String.length s in
  let m := String.length suffix in
  if Nat.leb m n then String.eqb (substring (n - m) m s) suffix else false.

(** [s.startswith(p)]. *)
Definition startswith (s p : string) : bool := prefix p s.

(** [s[:-k]] for a positive [k]: the slice [s[0 : max(0, len(s)-k)]]
    (truncated subtraction is the clipping Python does). *)
Definition slice_to_minus (k : nat) (s : string) : string :=
  substring 0 (String.length s - k) s.

(** [s.split(sep)] for a one-character separator: every occurrence of
    [sep] ends a field, so consecutive separators give empty fields
    and [''.split(sep)] is [['']]. *)
Fixpoint split (sep : ascii) (s : string) : list string :=
  match s with
  | EmptyString => [EmptyString]
  | String c rest =>
      if Ascii.eqb c sep then EmptyString :: split sep rest
      else match split sep rest with
           | [] => [String c EmptyString]
           | field :: fields => String c field :: fields
           end
  end.

(** Character-wise image of a string. *)
Fixpoint map (f : ascii -> ascii) (s : string) : string :=
  match s with
  | EmptyString => EmptyString
  | String c rest => String (f c) (map f rest)
  end.

(** Every character of the string satisfies [p]. *)
Fixpoint all (p : ascii -> bool) (s : string) : bool :=
  match s with
  | EmptyString => true
  | String c rest => p c && all p rest
  end.

End PyStr.

(** ** [os.sep] and [os.path.join] (POSIX) *)

Definition sep_char : ascii := "/"%char.
Definition os_sep : string := String sep_char EmptyString.

(** One iteration of the loop of [posixpath.join]:
<<
    if b.startswith(sep):                 path = b
    elif not path or path.endswith(sep):  path += b
    else:                                 path += sep + b
>> *)
Definition join_step (path b : string) : string :=
  if PyStr.startswith b os_sep then b
  else if negb (PyStr.truthy path) || PyStr.endswith path os_sep then path ++ b
  else path ++ os_sep ++ b.

(** [os.path.join(a, *p)]. *)
Definition os_path_join (a : string) (p : list string) : string :=
  fold_left join_step p a.

(** ** [site2skill/utils.py] *)

(** A character of the class [[a-zA-Z0-9._-]]. *)
Definition between (lo hi c : ascii) : bool :=
  Nat.leb (nat_of_ascii lo) (nat_of_ascii c)
  && Nat.leb (nat_of_ascii c) (nat_of_ascii hi).

Definition safe_char (c : ascii) : bool :=
  between "a" "z" c || between "A" "Z" c || between "0" "9" c
  || Ascii.eqb c "." || Ascii.eqb c "_" || Ascii.eqb c "-".

(** [re.sub(r'[^a-zA-Z0-9._-]', '_', part)]: every character outside
    the class is a match of length one and is replaced by ['_']. *)
Definition replace_unsafe (c : ascii) : ascii :=
  if safe_char c then c else "_"%char.

Definition re_sub_unsafe (part : string) : string :=
  PyStr.map replace_unsafe part.

(** The [for part in path_parts] loop of [sanitize_path]; [acc] is the
    list [sanitized_parts] built so far. *)
Fixpoint sanitize_loop (path_parts acc : list string) : list string :=
  match path_parts with
  | [] => acc
  | part :: rest =>
      if PyStr.truthy part
      then sanitize_loop rest (acc ++ [re_sub_unsafe part])%list
      else sanitize_loop rest acc
  end.

Definition sanitize_path (path : string) : string :=
  let path_parts := PyStr.split sep_char path in
  let sanitized_parts := sanitize_loop path_parts [] in
  match sanitized_parts with
  | [] => "file.md"
  | a :: p => os_path_join a p
  end.

Definition html_to_md_path (html_path : string) : string :=
  if PyStr.endswith html_path ".html"
  then PyStr.slice_to_minus 5 html_path ++ ".md"
  else html_path ++ ".md".

(** ** [site2skill/main.py]: the source URL of a crawled file *)

(** [parsed_input_url.scheme if parsed_input_url.scheme else "https"];
    [urlparse] gives the empty string when the URL has no scheme. *)
Definition scheme_or_default (parsed_scheme : string) : string :=
  if PyStr.truthy parsed_scheme then parsed_scheme else "https".

(** [rel_path[:-5] if rel_path.endswith('.html') else rel_path], then
    [f"{scheme}://{rel_path_for_url}"]. *)
Definition source_url (parsed_scheme rel_path : string) : string :=
  let scheme := scheme_or_default parsed_scheme in
  let rel_path_for_url :=
    if PyStr.endswith rel_path ".html"
    then PyStr.slice_to_minus 5 rel_path
    else rel_path in
  scheme ++ "://" ++ rel_path_for_url.

(** What one iteration of the conversion loop computes from [rel_path]
    before sanitising: the Markdown path and the source URL. *)
Definition map_rel_path (parsed_scheme rel_path : string) : string * string :=
  (html_to_md_path rel_path, source_url parsed_scheme rel_path).

(** ** Relative paths as segment sequences *)

(** The path string of a sequence of segments. *)
Definition path_of_segments (segments : list string) : string :=
  String.concat os_sep segments.

(** The segments of a path string. *)
Definition segments_of (path : string) : list string :=
  PyStr.split sep_char path.

(** The directory prefix: the segments before the final one. *)
Definition dir_prefix (path : string) : list string :=
  removelast (segments_of path).

(** The mapper on a segment sequence: the loop body applied to the path
    string of the sequence. *)
Definition mapPath (parsed_scheme : string) (relPath : list string)
  : string * string :=
  map_rel_path parsed_scheme (path_of_segments relPath).

(** ** Predicates on segments *)

(** The segment contains no path separator. *)
Definition no_sep (s : string) : bool :=
  PyStr.all (fun c => negb (Ascii.eqb c sep_char)) s.

(** The segment matches [[A-Za-z0-9._-]+]. *)
Definition safe_segment (s : string) : bool :=
  PyStr.truthy s && PyStr.all safe_char s.

(** The segments [sanitize_path] keeps, after replacement. *)
Definition sanitized_parts (path : string) : list string :=
  List.map re_sub_unsafe (filter PyStr.truthy (segments_of path)).

(** The characters of the class [[A-Za-z0-9._-]], listed. *)
Definition class_chars : list ascii :=
  list_ascii_of_string
    "abcdefghijklmnopqrstuvwxyzABCDEFGHIJKLMNOPQRSTUVWXYZ0123456789._-".

(** ** Outcome of a call *)

(** The error kind the specification names for the mapper. *)
Inductive error_kind : Type := InvalidInput.

Inductive outcome (A : Type) : Type :=
| Returned (value : A)
| Failed (e : error_kind).
Arguments Returned {A} value.
Arguments Failed {A} e.

(** A call of the mapper.  Neither [html_to_md_path] nor the URL code of
    [main] has a [raise] or a guard on its argument, and [endswith],
    slicing and [+] are defined on every [str]: the call returns. *)
Definition mapPath_outcome (parsed_scheme : string) (relPath : list string)
  : outcome (string * string) :=
  Returned (mapPath parsed_scheme relPath).

(** ** The sanitizer as the specification words it *)

(** Split on the separator, drop the segments empty before
    sanitisation, replace the characters outside the class, drop the
    segments empty after sanitisation, rejoin; the fallback when nothing
    is left. *)
Definition spec_sanitizePath (path : string) : string :=
  let segments := segments_of path in
  let kept := filter PyStr.truthy segments in
  let replaced := List.map re_sub_unsafe kept in
  let survivors := filter PyStr.truthy replaced in
  match survivors with
  | [] => "file.md"
  | _ :: _ => path_of_segments survivors
  end.

(** ** [site2skill/main.py]: where a converted file is written *)

(** [temp_md_dir = os.path.join(args.temp_dir, "markdown")]. *)
Definition temp_md_dir (temp_dir : string) : string :=
  os_path_join temp_dir ["markdown"].

(** [md_rel_path = html_to_md_path(rel_path)] followed by
    [md_rel_path = sanitize_path(md_rel_path)]. *)
Definition md_rel_path (rel_path : string) : string :=
  sanitize_path (html_to_md_path rel_path).

(** [md_path = os.path.join(temp_md_dir, md_rel_path)]. *)
Definition md_path (temp_dir rel_path : string) : string :=
  os_path_join (temp_md_dir temp_dir) [md_rel_path rel_path].

(** ** [site2skill/generate_skill_structure.py]: the copy destination *)

(** [skill_dir = os.path.join(output_base, skill_name)]. *)
Definition skill_dir (output_base skill_name : string) : string :=
  os_path_join output_base [skill_name].

(** [docs_dir = os.path.join(skill_dir, "docs")]. *)
Definition docs_dir (output_base skill_name : string) : string :=
  os_path_join (skill_dir output_base skill_name) ["docs"].

(** [scripts_dir = os.path.join(skill_dir, "scripts")]. *)
Definition scripts_dir (output_base skill_name : string) : string :=
  os_path_join (skill_dir output_base skill_name) ["scripts"].

(** The test [file.endswith(".md")] of the copy loop. *)
Definition is_markdown_file (file : string) : bool :=
  PyStr.endswith file ".md".

(** [dst_path = os.path.join(docs_dir, rel_path)]. *)
Definition dst_path (output_base skill_name rel_path : string) : string :=
  os_path_join (docs_dir output_base skill_name) [rel_path].

(** ** [test_integration.py]: the pipeline written out in the test *)

(** The body of the loop of [run_conversion_pipeline]:
<<
    if rel_path.endswith('.html'): md_rel_path = rel_path[:-5] + '.md'
    else:                          md_rel_path = rel_path + '.md'
    path_parts = md_rel_path.split(os.sep)
    sanitized_parts = [re.sub(r'[^a-zA-Z0-9._-]', '_', part)
                       for part in path_parts]
    md_rel_path = os.path.join( *sanitized_parts ) if sanitized_parts
                  else md_rel_path
>> *)
Definition inline_md_rel_path (rel_path : string) : string :=
  let md_rel_path :=
    if PyStr.endswith rel_path ".html"
    then PyStr.slice_to_minus 5 rel_path ++ ".md"
    else rel_path ++ ".md" in
  let path_parts := PyStr.split sep_char md_rel_path in
  let sanitized_parts := List.map re_sub_unsafe path_parts in
  match sanitized_parts with
  | [] => md_rel_path
  | a :: p => os_path_join a p
  end.

(** * Facts about the [str] operations *)

Section StringFacts.

Lemma append_assoc (s t u : string) : (s ++ t) ++ u = s ++ t ++ u.
Proof. induction s as [|c s IH]; simpl; [reflexivity | now rewrite IH]. Qed.

Lemma length_append (s t : string) :
  String.length (s ++ t) = String.length s + String.length t.
Proof. induction s as [|c s IH]; simpl; [reflexivity | now rewrite IH]. Qed.

Lemma chars_append (s t : string) :
  list_ascii_of_string (s ++ t)
  = (list_ascii_of_string s ++ list_ascii_of_string t)%list.
Proof. induction s as [|c s IH]; simpl; [reflexivity | now rewrite IH]. Qed.

Lemma chars_inj (s t : string) :
  list_ascii_of_string s = list_ascii_of_string t -> s = t.
Proof.
  intros E. rewrite <- (string_of_list_ascii_of_string s), E.
  apply string_of_list_ascii_of_string.
Qed.

Lemma truthy_iff (s : string) : PyStr.truthy s = true <-> s <> "".
Proof. destruct s; simpl; split; congruence. Qed.

Lemma truthy_append_r (s t : string) :
  PyStr.truthy t = true -> PyStr.truthy (s ++ t) = true.
Proof. destruct s; simpl; auto. Qed.

(** *** Slices *)

Lemma substring_prefix (s t : string) :
  substring 0 (String.length s) (s ++ t) = s.
Proof.
  induction s as [|c s IH]; simpl.
  - now destruct t.
  - now rewrite IH.
Qed.

Lemma substring_suffix (s t : string) :
  substring (String.length s) (String.length t) (s ++ t) = t.
Proof.
  induction s as [|c s IH]; simpl; [|exact IH].
  induction t as [|c t IH]; simpl; [reflexivity | now rewrite IH].
Qed.

(** A string is the slice before position [k] followed by the rest. *)
Lemma substring_split (k : nat) (s : string) :
  k <= String.length s ->
  substring 0 k s ++ substring k (String.length s - k) s = s.
Proof.
  revert k; induction s as [|c s IH]; intros [|k] L; simpl in *;
    try reflexivity; try lia.
  - f_equal. specialize (IH 0 (Nat.le_0_l _)).
    rewrite Nat.sub_0_r in IH. now destruct s.
  - f_equal. apply IH. lia.
Qed.

(** *** [endswith] and [s[:-k]] *)

Lemma endswith_append (s suffix : string) :
  PyStr.endswith (s ++ suffix) suffix = true.
Proof.
  unfold PyStr.endswith. rewrite length_append.
  replace (Nat.leb _ _) with true by (symmetry; apply Nat.leb_le; lia).
  replace (_ + _ - _) with (String.length s) by lia.
  rewrite substring_suffix. apply String.eqb_refl.
Qed.

Lemma slice_to_minus_append (s suffix : string) :
  PyStr.slice_to_minus (String.length suffix) (s ++ suffix) = s.
Proof.
  unfold PyStr.slice_to_minus. rewrite length_append.
  replace (_ + _ - _) with (String.length s) by lia.
  apply substring_prefix.
Qed.

Lemma endswith_true (s suffix : string) :
  PyStr.endswith s suffix = true ->
  s = PyStr.slice_to_minus (String.length suffix) s ++ suffix.
Proof.
  unfold PyStr.endswith, PyStr.slice_to_minus.
  destruct (Nat.leb_spec (String.length suffix) (String.length s)) as [L|L];
    [|discriminate].
  intros E. apply String.eqb_eq in E.
  pose proof (substring_split (String.length s - String.length suffix) s) as D.
  replace (String.length s - (String.length s - String.length suffix))
    with (String.length suffix) in D by lia.
  rewrite E in D. symmetry. apply D. lia.
Qed.

(** [s.endswith(suffix)] holds exactly when [s] is some string
    followed by [suffix]. *)
Lemma endswith_iff (s suffix : string) :
  PyStr.endswith s suffix = true <-> exists stem, s = stem ++ suffix.
Proof.
  split.
  - intros E. eexists. now apply endswith_true.
  - intros [stem ->]. apply endswith_append.
Qed.

Lemma endswith_false (s suffix : string) :
  PyStr.endswith s suffix = false <-> forall stem, s <> stem ++ suffix.
Proof.
  split.
  - intros E stem ->. now rewrite endswith_append in E.
  - intros N. destruct (PyStr.endswith s suffix) eqn:E; [|reflexivity].
    apply endswith_iff in E. destruct E as [stem ->]. now destruct (N stem).
Qed.

End StringFacts.

(** * Splitting and joining paths *)

Section SplitJoin.

Lemma split_not_nil (sep : ascii) (s : string) : PyStr.split sep s <> [].
Proof.
  destruct s as [|c s]; simpl; [discriminate|].
  destruct (Ascii.eqb c sep); [discriminate|].
  destruct (PyStr.split sep s); discriminate.
Qed.

Lemma no_sep_cons (c : ascii) (s : string) :
  no_sep (String c s) = true <-> c <> sep_char /\ no_sep s = true.
Proof.
  unfold no_sep; simpl. rewrite andb_true_iff, negb_true_iff.
  now rewrite Ascii.eqb_neq.
Qed.

Lemma no_sep_chars (s : string) :
  no_sep s = true <-> ~ In sep_char (list_ascii_of_string s).
Proof.
  induction s as [|c s IH]; simpl.
  - intuition.
  - rewrite no_sep_cons, IH. intuition congruence.
Qed.

(** A separator-free string is a single segment. *)
Lemma split_no_sep (s : string) :
  no_sep s = true -> segments_of s = [s].
Proof.
  unfold segments_of. induction s as [|c s IH]; simpl; [reflexivity|].
  intros H. apply no_sep_cons in H. destruct H as [Hc Hs].
  apply Ascii.eqb_neq in Hc. rewrite Hc, (IH Hs). reflexivity.
Qed.

(** The first separator ends the first segment. *)
Lemma split_first (s rest : string) :
  no_sep s = true ->
  segments_of (s ++ os_sep ++ rest) = s :: segments_of rest.
Proof.
  unfold segments_of. induction s as [|c s IH]; simpl; intros H.
  - reflexivity.
  - apply no_sep_cons in H. destruct H as [Hc Hs].
    apply Ascii.eqb_neq in Hc. rewrite Hc. simpl in IH.
    now rewrite (IH Hs).
Qed.

(** Appending separator-free text only extends the final segment. *)
Lemma split_append_no_sep (s t : string) :
  no_sep t = true ->
  segments_of (s ++ t)
  = (removelast (segments_of s)
     ++ [(last (segments_of s) "" ++ t)%string])%list.
Proof.
  intros Ht. unfold segments_of.
  induction s as [|c s IH].
  - simpl. now apply split_no_sep.
  - cbn [append PyStr.split]. rewrite IH.
    pose proof (split_not_nil sep_char s) as NN.
    destruct (PyStr.split sep_char s) as [|h tl]; [contradiction|].
    destruct (Ascii.eqb c sep_char).
    + destruct tl; reflexivity.
    + destruct tl; reflexivity.
Qed.

Lemma dir_prefix_append_no_sep (s t : string) :
  no_sep t = true -> dir_prefix (s ++ t) = dir_prefix s.
Proof.
  intros Ht. unfold dir_prefix.
  rewrite (split_append_no_sep s t Ht). apply removelast_last.
Qed.

Lemma path_of_segments_cons (x : string) (segs : list string) :
  segs <> [] ->
  path_of_segments (x :: segs) = x ++ os_sep ++ path_of_segments segs.
Proof. destruct segs; [congruence | reflexivity]. Qed.

(** Joining the segments of a path gives the path back. *)
Lemma path_of_segments_of (s : string) :
  path_of_segments (segments_of s) = s.
Proof.
  unfold segments_of.
  induction s as [|c s IH]; [reflexivity|].
  pose proof (split_not_nil sep_char s) as NN. cbn [PyStr.split].
  destruct (Ascii.eqb_spec c sep_char) as [->|N].
  - rewrite path_of_segments_cons, IH by assumption. reflexivity.
  - rewrite <- IH at 2.
    destruct (PyStr.split sep_char s) as [|h [|h' tl]];
      [contradiction | reflexivity | reflexivity].
Qed.

(** Splitting the join of separator-free segments gives them back. *)
Lemma segments_of_path (segs : list string) :
  segs <> [] -> Forall (fun s => no_sep s = true) segs ->
  segments_of (path_of_segments segs) = segs.
Proof.
  induction segs as [|x segs IH]; [congruence|]. intros _ F.
  inversion F as [|? ? Hx F']; subst.
  destruct segs as [|y segs].
  - now apply split_no_sep.
  - rewrite path_of_segments_cons, split_first by (discriminate || assumption).
    f_equal. apply IH; [discriminate | assumption].
Qed.

(** The path of [dirs ++ [name]] is the path of the directory part,
    with its trailing separator, followed by [name]. *)
Lemma path_of_segments_snoc (dirs : list string) (name : string) :
  path_of_segments (dirs ++ [name])
  = path_of_segments (dirs ++ [""]) ++ name.
Proof.
  induction dirs as [|d dirs IH]; [reflexivity|].
  cbn [app].
  rewrite !path_of_segments_cons, IH, !append_assoc
    by (now destruct dirs).
  reflexivity.
Qed.

Lemma path_of_dir (dirs : list string) :
  dirs <> [] ->
  path_of_segments (dirs ++ [""]) = path_of_segments dirs ++ os_sep.
Proof.
  induction dirs as [|d dirs IH]; [congruence|].
  intros _. destruct dirs as [|e dirs]; [reflexivity|].
  cbn [app] in *.
  rewrite (path_of_segments_cons d (e :: dirs ++ [""])) by discriminate.
  rewrite (path_of_segments_cons d (e :: dirs)) by discriminate.
  rewrite IH, !append_assoc by discriminate.
  reflexivity.
Qed.

End SplitJoin.

(** * The replacement of unsafe characters *)

Section Replacement.

Lemma sep_unsafe : safe_char sep_char = false.
Proof. reflexivity. Qed.

Lemma replace_unsafe_safe (c : ascii) : safe_char (replace_unsafe c) = true.
Proof.
  unfold replace_unsafe. destruct (safe_char c) eqn:E; [exact E | reflexivity].
Qed.

Lemma replace_unsafe_id (c : ascii) :
  safe_char c = true -> replace_unsafe c = c.
Proof. unfold replace_unsafe. now intros ->. Qed.

Lemma re_sub_unsafe_length (part : string) :
  String.length (re_sub_unsafe part) = String.length part.
Proof. unfold re_sub_unsafe. induction part as [|c s IH]; simpl; [reflexivity | now rewrite IH]. Qed.

Lemma re_sub_unsafe_truthy (part : string) :
  PyStr.truthy (re_sub_unsafe part) = PyStr.truthy part.
Proof. now destruct part. Qed.

Lemma re_sub_unsafe_all_safe (part : string) :
  PyStr.all safe_char (re_sub_unsafe part) = true.
Proof.
  unfold re_sub_unsafe. induction part as [|c s IH]; simpl; [reflexivity|].
  now rewrite replace_unsafe_safe, IH.
Qed.

Lemma re_sub_unsafe_id (part : string) :
  PyStr.all safe_char part = true -> re_sub_unsafe part = part.
Proof.
  unfold re_sub_unsafe. induction part as [|c s IH]; simpl; [reflexivity|].
  rewrite andb_true_iff. intros [Hc Hs].
  now rewrite (replace_unsafe_id c Hc), (IH Hs).
Qed.

Lemma re_sub_unsafe_append (s t : string) :
  re_sub_unsafe (s ++ t) = re_sub_unsafe s ++ re_sub_unsafe t.
Proof. unfold re_sub_unsafe. induction s as [|c s IH]; simpl; [reflexivity | now rewrite IH]. Qed.

(** The character at each position is kept when it is in the class
    and is ['_'] otherwise. *)
Lemma re_sub_unsafe_get (part : string) (i : nat) (c : ascii) :
  String.get i part = Some c ->
  String.get i (re_sub_unsafe part)
  = Some (if safe_char c then c else "_"%char).
Proof.
  unfold re_sub_unsafe. revert i; induction part as [|d s IH]; intros [|i]; simpl; try discriminate.
  - now intros [= ->].
  - apply IH.
Qed.

Lemma all_safe_no_sep (s : string) :
  PyStr.all safe_char s = true -> no_sep s = true.
Proof.
  induction s as [|c s IH]; [reflexivity|]. simpl.
  rewrite andb_true_iff. intros [Hc Hs]. apply no_sep_cons. split; [|auto].
  intros ->. rewrite sep_unsafe in Hc. discriminate.
Qed.

Lemma safe_segment_iff (s : string) :
  safe_segment s = true
  <-> PyStr.truthy s = true /\ PyStr.all safe_char s = true.
Proof. unfold safe_segment. apply andb_true_iff. Qed.

Lemma re_sub_unsafe_safe_segment (part : string) :
  PyStr.truthy part = true -> safe_segment (re_sub_unsafe part) = true.
Proof.
  intros T. apply safe_segment_iff.
  now rewrite re_sub_unsafe_truthy, re_sub_unsafe_all_safe.
Qed.

(** Every kept segment is a non-empty string over the class. *)
Lemma sanitized_parts_safe (path : string) :
  Forall (fun s => safe_segment s = true) (sanitized_parts path).
Proof.
  unfold sanitized_parts. apply Forall_map, Forall_forall.
  intros part I. apply filter_In in I.
  now apply re_sub_unsafe_safe_segment.
Qed.

Lemma safe_segments_no_sep (segs : list string) :
  Forall (fun s => safe_segment s = true) segs ->
  Forall (fun s => no_sep s = true) segs.
Proof.
  apply Forall_impl. intros s H. apply safe_segment_iff in H.
  now apply all_safe_no_sep.
Qed.

End Replacement.

(** * [os.path.join] on the kept segments *)

Section Join.

Lemma startswith_sep_false (b : string) :
  PyStr.truthy b = true -> no_sep b = true ->
  PyStr.startswith b os_sep = false.
Proof.
  destruct b as [|c b]; [discriminate|]. intros _ H.
  apply no_sep_cons in H. destruct H as [Hc _].
  unfold PyStr.startswith, os_sep. cbn [prefix].
  destruct (ascii_dec sep_char c) as [E|_]; [now destruct Hc | reflexivity].
Qed.

(** A path whose last segment is not empty does not end with the
    separator. *)
Lemma endswith_sep_false (a b : string) :
  PyStr.truthy b = true -> no_sep b = true ->
  PyStr.endswith (a ++ b) os_sep = false.
Proof.
  intros T N. apply endswith_false. intros stem E.
  apply (f_equal list_ascii_of_string) in E. rewrite !chars_append in E.
  apply no_sep_chars in N.
  destruct (exists_last (l := list_ascii_of_string b)) as [l [z Eb]].
  - destruct b; [discriminate T | discriminate].
  - rewrite Eb in E, N. rewrite app_assoc in E.
    apply app_inj_tail in E. destruct E as [_ ->].
    apply N, in_or_app. right. now left.
Qed.

Lemma join_step_segment (a b c : string) :
  PyStr.truthy b = true -> no_sep b = true ->
  PyStr.truthy c = true -> no_sep c = true ->
  join_step (a ++ b) c = (a ++ b) ++ os_sep ++ c.
Proof.
  intros Tb Nb Tc Nc. unfold join_step.
  rewrite (startswith_sep_false c Tc Nc), (endswith_sep_false a b Tb Nb).
  now rewrite (truthy_append_r a b Tb).
Qed.

Lemma fold_join_step (p : list string) :
  forall a b : string,
  PyStr.truthy b = true -> no_sep b = true ->
  Forall (fun s => safe_segment s = true) p ->
  fold_left join_step p (a ++ b) = a ++ path_of_segments (b :: p).
Proof.
  induction p as [|c p IH]; intros a b Tb Nb F; simpl.
  - reflexivity.
  - inversion F as [|? ? Hc F']; subst.
    apply safe_segment_iff in Hc. destruct Hc as [Tc Sc].
    pose proof (all_safe_no_sep c Sc) as Nc.
    rewrite (join_step_segment a b c Tb Nb Tc Nc).
    replace ((a ++ b) ++ os_sep ++ c) with ((a ++ b ++ os_sep) ++ c)
      by now rewrite !append_assoc.
    rewrite (IH _ c Tc Nc F').
    rewrite (path_of_segments_cons b (c :: p)) by discriminate.
    now rewrite !append_assoc.
Qed.

(** On non-empty segments over the class [os.path.join] is the join
    with the separator. *)
Lemma os_path_join_segments (a : string) (p : list string) :
  Forall (fun s => safe_segment s = true) (a :: p) ->
  os_path_join a p = path_of_segments (a :: p).
Proof.
  intros F. inversion F as [|? ? Ha F']; subst.
  apply safe_segment_iff in Ha. destruct Ha as [Ta Sa].
  apply (fold_join_step p "" a Ta (all_safe_no_sep a Sa) F').
Qed.

End Join.

(** * [sanitize_path] in closed form *)

Section Sanitize.

Lemma sanitize_loop_spec (path_parts acc : list string) :
  sanitize_loop path_parts acc
  = (acc ++ List.map re_sub_unsafe (filter PyStr.truthy path_parts))%list.
Proof.
  revert acc; induction path_parts as [|part rest IH]; intros acc; simpl.
  - now rewrite app_nil_r.
  - destruct (PyStr.truthy part); rewrite IH; [|reflexivity].
    now rewrite <- app_assoc.
Qed.

Lemma sanitize_path_parts (path : string) :
  sanitize_path path
  = match sanitized_parts path with
    | [] => "file.md"
    | parts => path_of_segments parts
    end.
Proof.
  unfold sanitize_path. rewrite sanitize_loop_spec. simpl.
  fold (segments_of path). fold (sanitized_parts path).
  pose proof (sanitized_parts_safe path) as F.
  destruct (sanitized_parts path) as [|a p]; [reflexivity|].
  now apply os_path_join_segments.
Qed.

(** The segments of the result: the kept segments, or the fallback. *)
Lemma segments_of_sanitize_path (path : string) :
  segments_of (sanitize_path path)
  = match sanitized_parts path with
    | [] => ["file.md"]
    | parts => parts
    end.
Proof.
  rewrite sanitize_path_parts.
  pose proof (sanitized_parts_safe path) as F.
  destruct (sanitized_parts path) as [|a p]; [reflexivity|].
  apply segments_of_path; [discriminate | now apply safe_segments_no_sep].
Qed.

(** A path made of non-empty segments over the class is returned
    unchanged. *)
Lemma sanitize_path_safe_segments (segs : list string) :
  segs <> [] -> Forall (fun s => safe_segment s = true) segs ->
  sanitize_path (path_of_segments segs) = path_of_segments segs.
Proof.
  intros NN F. rewrite sanitize_path_parts. unfold sanitized_parts.
  rewrite (segments_of_path segs NN (safe_segments_no_sep segs F)).
  assert (filter PyStr.truthy segs = segs) as ->.
  { apply forallb_filter_id, forallb_forall. intros s I.
    rewrite Forall_forall in F. apply F in I.
    now apply safe_segment_iff in I. }
  assert (List.map re_sub_unsafe segs = segs) as ->.
  { rewrite <- (map_id segs) at 2. apply map_ext_in. intros s I.
    rewrite Forall_forall in F. apply F in I.
    apply safe_segment_iff in I. now apply re_sub_unsafe_id. }
  destruct segs; [congruence | reflexivity].
Qed.

End Sanitize.

(** * The path mapper *)

Section Mapper.

Lemma slice_html (stem : string) :
  PyStr.slice_to_minus 5 (stem ++ ".html") = stem.
Proof. exact (slice_to_minus_append stem ".html"). Qed.

Lemma html_to_md_path_html (stem : string) :
  html_to_md_path (stem ++ ".html") = stem ++ ".md".
Proof.
  unfold html_to_md_path. rewrite endswith_append.
  now rewrite slice_html.
Qed.

Lemma html_to_md_path_other (p : string) :
  (forall stem, p <> stem ++ ".html") -> html_to_md_path p = p ++ ".md".
Proof.
  intros N. apply endswith_false in N. unfold html_to_md_path.
  now rewrite N.
Qed.

(** The two cases of [html_to_md_path]. *)
Lemma html_to_md_path_cases (p : string) :
  (exists stem, p = stem ++ ".html" /\ html_to_md_path p = stem ++ ".md")
  \/ ((forall stem, p <> stem ++ ".html") /\ html_to_md_path p = p ++ ".md").
Proof.
  destruct (PyStr.endswith p ".html") eqn:E.
  - left. apply endswith_iff in E. destruct E as [stem ->].
    exists stem. split; [reflexivity | apply html_to_md_path_html].
  - right. rewrite endswith_false in E. split; [exact E|].
    now apply html_to_md_path_other.
Qed.

(** The directory prefix goes through [html_to_md_path] unchanged. *)
Lemma dir_prefix_html_to_md_path (p : string) :
  dir_prefix (html_to_md_path p) = dir_prefix p.
Proof.
  destruct (html_to_md_path_cases p) as [[stem [-> ->]]|[_ ->]].
  - now rewrite !dir_prefix_append_no_sep.
  - now rewrite dir_prefix_append_no_sep.
Qed.

(** A suffix [".html"] of a path lies within its final segment. *)
Lemma html_suffix_in_final_segment (dirs : list string) (name pre : string) :
  path_of_segments (dirs ++ [name]) = pre ++ ".html" ->
  exists stem, name = stem ++ ".html".
Proof.
  rewrite path_of_segments_snoc. destruct dirs as [|d dirs].
  - simpl. intros ->. now exists pre.
  - rewrite path_of_dir by discriminate.
    set (q := path_of_segments (d :: dirs)). intros E.
    apply (f_equal list_ascii_of_string) in E.
    rewrite !chars_append in E.
    apply app_eq_app in E. destruct E as [l [[E1 E2]|[_ E2]]].
    + destruct (list_eq_dec ascii_dec l []) as [->|NE].
      * exists "". apply chars_inj. symmetry. exact E2.
      * exfalso. destruct (exists_last NE) as [l' [z ->]].
        rewrite app_assoc in E1. apply app_inj_tail in E1.
        destruct E1 as [_ <-].
        assert (In sep_char (list_ascii_of_string ".html")) as I.
        { rewrite E2. apply in_or_app. left. apply in_or_app.
          right. now left. }
        simpl in I. unfold sep_char in I.
        repeat (destruct I as [I|I]; [discriminate I|]). exact I.
    + exists (string_of_list_ascii l). apply chars_inj.
      now rewrite E2, chars_append, list_ascii_of_string_of_list_ascii.
Qed.

Lemma source_url_html (parsed_scheme stem : string) :
  source_url parsed_scheme (stem ++ ".html")
  = scheme_or_default parsed_scheme ++ "://" ++ stem.
Proof.
  unfold source_url. rewrite endswith_append.
  now rewrite slice_html.
Qed.

Lemma source_url_other (parsed_scheme p : string) :
  (forall stem, p <> stem ++ ".html") ->
  source_url parsed_scheme p = scheme_or_default parsed_scheme ++ "://" ++ p.
Proof.
  intros N. apply endswith_false in N. unfold source_url. now rewrite N.
Qed.

(** On segment sequences: distinct directory parts give distinct
    results, as soon as no segment contains the separator. *)
Lemma mapPath_distinct_directories
      (s1 s2 : string) (dirs1 dirs2 : list string) (name1 name2 : string) :
  Forall (fun s => no_sep s = true) (dirs1 ++ [name1]) ->
  Forall (fun s => no_sep s = true) (dirs2 ++ [name2]) ->
  dirs1 <> dirs2 ->
  mapPath s1 (dirs1 ++ [name1]) <> mapPath s2 (dirs2 ++ [name2]).
Proof.
  intros F1 F2 D E. apply D. unfold mapPath, map_rel_path in E.
  injection E as E _. apply (f_equal dir_prefix) in E.
  rewrite !dir_prefix_html_to_md_path in E. unfold dir_prefix in E.
  rewrite !segments_of_path, !removelast_last in E;
    solve [assumption | now destruct dirs1 | now destruct dirs2].
Qed.

(** C1: two relative paths whose directory prefixes (the segments
    before the final one) differ are mapped to different Markdown
    paths, and to different (Markdown path, source URL) pairs, because
    [html_to_md_path] leaves the directory prefix as it is. *)
Theorem html_to_md_path_preserves_directories (p1 p2 : string) :
  dir_prefix p1 <> dir_prefix p2 ->
  dir_prefix (html_to_md_path p1) = dir_prefix p1
  /\ dir_prefix (html_to_md_path p2) = dir_prefix p2
  /\ html_to_md_path p1 <> html_to_md_path p2
  /\ forall s1 s2 : string, map_rel_path s1 p1 <> map_rel_path s2 p2.
Proof.
  intros D.
  assert (html_to_md_path p1 <> html_to_md_path p2) as N.
  { intros E. apply D. rewrite <- (dir_prefix_html_to_md_path p1), E.
    apply dir_prefix_html_to_md_path. }
  repeat split; try apply dir_prefix_html_to_md_path; [exact N|].
  intros s1 s2 E. apply N. unfold map_rel_path in E. now injection E.
Qed.

Lemma html_to_md_path_preserves_directories_witness :
  dir_prefix "example.com/a/index.html" <> dir_prefix "example.com/index.html"
  /\ html_to_md_path "example.com/a/index.html"
     <> html_to_md_path "example.com/index.html".
Proof.
  assert (dir_prefix "example.com/a/index.html"
          <> dir_prefix "example.com/index.html") as D
    by (vm_compute; discriminate).
  split; [exact D|].
  apply (html_to_md_path_preserves_directories _ _ D).
Defined.

(** C2: for the path of a non-empty segment sequence, a final segment
    [stem.html] gives the same path with final segment [stem.md], and
    a final segment that does not end with [.html] gives the same path
    with [.md] appended to the final segment; the two [index.html]
    examples of the specification get distinct output paths. *)
Theorem html_to_md_path_extension_rule (dirs : list string) (name : string) :
  (forall stem : string, name = stem ++ ".html" ->
     html_to_md_path (path_of_segments (dirs ++ [name]))
     = path_of_segments (dirs ++ [stem ++ ".md"]))
  /\ ((forall stem : string, name <> stem ++ ".html") ->
     html_to_md_path (path_of_segments (dirs ++ [name]))
     = path_of_segments (dirs ++ [name ++ ".md"]))
  /\ (forall scheme : string,
        fst (mapPath scheme ["docs.example.com"; "index.html"])
        = "docs.example.com/index.md"
        /\ fst (mapPath scheme ["docs.example.com"; "a"; "index.html"])
           = "docs.example.com/a/index.md"
        /\ fst (mapPath scheme ["docs.example.com"; "index.html"])
           <> fst (mapPath scheme ["docs.example.com"; "a"; "index.html"])).
Proof.
  split; [|split].
  - intros stem ->.
    rewrite (path_of_segments_snoc dirs (stem ++ ".html")).
    rewrite (path_of_segments_snoc dirs (stem ++ ".md")).
    rewrite <- !append_assoc. apply html_to_md_path_html.
  - intros N.
    rewrite (path_of_segments_snoc dirs (name ++ ".md")).
    rewrite <- append_assoc, <- path_of_segments_snoc.
    apply html_to_md_path_other. intros pre E.
    apply html_suffix_in_final_segment in E. destruct E as [stem E].
    now apply (N stem).
  - intros scheme. repeat split. discriminate.
Qed.

Lemma html_to_md_path_extension_rule_witness :
  html_to_md_path (path_of_segments (["docs"] ++ ["page.html"]))
  = path_of_segments (["docs"] ++ ["page" ++ ".md"]).
Proof.
  apply (proj1 (html_to_md_path_extension_rule ["docs"] "page.html") "page").
  reflexivity.
Defined.

(** C3: the source URL is the scheme (["https"] when the input URL
    has none), then ["://"], then the path of the segment sequence
    without a trailing [".html"]; the characters are copied as they
    are. *)
Theorem source_url_rule (parsed_scheme : string) (relPath : list string) :
  scheme_or_default "" = "https"
  /\ (parsed_scheme <> "" -> scheme_or_default parsed_scheme = parsed_scheme)
  /\ (forall stem : string, path_of_segments relPath = stem ++ ".html" ->
        snd (mapPath parsed_scheme relPath)
        = scheme_or_default parsed_scheme ++ "://" ++ stem)
  /\ ((forall stem : string, path_of_segments relPath <> stem ++ ".html") ->
        snd (mapPath parsed_scheme relPath)
        = scheme_or_default parsed_scheme ++ "://" ++ path_of_segments relPath)
  /\ snd (mapPath "" ["docs.example.com"; "a"; "index.html"])
     = "https://docs.example.com/a/index"
  /\ snd (mapPath "http" ["docs.example.com"; "a b"; "c%d?e.html"])
     = "http://docs.example.com/a b/c%d?e".
Proof.
  repeat split.
  - intros N. unfold scheme_or_default. apply truthy_iff in N. now rewrite N.
  - intros stem E. unfold mapPath, map_rel_path. simpl snd. rewrite E.
    apply source_url_html.
  - intros N. now apply source_url_other.
Qed.

Lemma source_url_rule_witness :
  snd (mapPath "http" ["docs.pay.jp"; "v1"; "cardtoken.html"])
  = scheme_or_default "http" ++ "://" ++ "docs.pay.jp/v1/cardtoken".
Proof.
  apply (proj1 (proj2 (proj2
           (source_url_rule "http" ["docs.pay.jp"; "v1"; "cardtoken.html"])))).
  reflexivity.
Defined.

(** C4, as the code has it: the mapper returns on every segment
    sequence, the empty one included, with a Markdown path that ends
    with [".md"] and a URL that starts with the scheme and ["://"];
    on the empty sequence it returns [".md"] and the bare
    ["scheme://"]. *)
Theorem mapPath_total (parsed_scheme : string) (relPath : list string) :
  (exists (md url : string),
      mapPath_outcome parsed_scheme relPath = Returned (md, url)
      /\ (exists stem, md = stem ++ ".md")
      /\ (exists rest, url = scheme_or_default parsed_scheme ++ "://" ++ rest))
  /\ mapPath_outcome parsed_scheme relPath <> Failed InvalidInput
  /\ mapPath_outcome parsed_scheme []
     = Returned (".md", scheme_or_default parsed_scheme ++ "://").
Proof.
  split; [|split; [discriminate | reflexivity]].
  exists (html_to_md_path (path_of_segments relPath)),
         (source_url parsed_scheme (path_of_segments relPath)).
  split; [reflexivity|]. split.
  - destruct (html_to_md_path_cases (path_of_segments relPath))
      as [[stem [_ ->]]|[_ ->]]; eauto.
  - unfold source_url. eauto.
Qed.

(** C4 as stated fails: on the empty segment sequence the mapper does
    not fail with [InvalidInput], it returns [(".md", "https://")]. *)
Lemma mapPath_empty_path_returns :
  mapPath_outcome "" [] = Returned (".md", "https://")
  /\ mapPath_outcome "" [] <> Failed InvalidInput.
Proof. split; [reflexivity | discriminate]. Qed.

End Mapper.

(** * The path sanitizer *)

Section Sanitizer.

(** The class is exactly the listed characters. *)
Lemma safe_char_class (c : ascii) :
  safe_char c = true <-> In c class_chars.
Proof.
  assert (safe_char c = existsb (Ascii.eqb c) class_chars) as ->
    by (destruct c as [[] [] [] [] [] [] [] []]; vm_compute; reflexivity).
  rewrite existsb_exists. split.
  - intros [d [I E]]. apply Ascii.eqb_eq in E. now subst.
  - intros I. exists c. split; [exact I | apply Ascii.eqb_refl].
Qed.

Lemma sanitized_parts_truthy (path : string) :
  filter PyStr.truthy (sanitized_parts path) = sanitized_parts path.
Proof.
  apply forallb_filter_id, forallb_forall. intros part I.
  pose proof (sanitized_parts_safe path) as F.
  rewrite Forall_forall in F. apply F in I.
  now apply safe_segment_iff in I.
Qed.

Lemma sanitize_path_spec (path : string) :
  sanitize_path path = spec_sanitizePath path.
Proof.
  rewrite sanitize_path_parts. unfold spec_sanitizePath.
  fold (sanitized_parts path). rewrite sanitized_parts_truthy.
  now destruct (sanitized_parts path).
Qed.

Lemma sanitize_path_segments_safe (path : string) :
  Forall (fun s => safe_segment s = true) (segments_of (sanitize_path path)).
Proof.
  rewrite segments_of_sanitize_path.
  pose proof (sanitized_parts_safe path) as F.
  destruct (sanitized_parts path); [|exact F].
  now constructor.
Qed.

(** The result is the path of a non-empty sequence of non-empty
    segments over the class. *)
Lemma sanitize_path_shape (path : string) :
  exists segs : list string,
    segs <> []
    /\ Forall (fun s => safe_segment s = true) segs
    /\ sanitize_path path = path_of_segments segs.
Proof.
  rewrite sanitize_path_parts.
  pose proof (sanitized_parts_safe path) as F.
  destruct (sanitized_parts path) as [|a p] eqn:E.
  - exists ["file.md"]. repeat split; [discriminate | now constructor].
  - exists (a :: p). repeat split; [discriminate | exact F].
Qed.

Lemma path_of_segments_not_empty (segs : list string) :
  segs <> [] -> Forall (fun s => safe_segment s = true) segs ->
  path_of_segments segs <> "".
Proof.
  destruct segs as [|a p]; [congruence|]. intros _ F.
  inversion F as [|? ? Ha _]; subst. apply safe_segment_iff in Ha.
  destruct Ha as [Ta _]. destruct a; [discriminate|].
  destruct p; discriminate.
Qed.

(** A string of separators has only empty segments. *)
Lemma segments_of_separators (path : string) :
  PyStr.all (Ascii.eqb sep_char) path = true ->
  filter PyStr.truthy (segments_of path) = [].
Proof.
  unfold segments_of. induction path as [|c s IH]; [reflexivity|].
  cbn [PyStr.all PyStr.split]. rewrite andb_true_iff. intros [Hc Hs].
  rewrite Ascii.eqb_sym in Hc. rewrite Hc. simpl. auto.
Qed.

Lemma sanitize_path_no_segment (path : string) :
  filter PyStr.truthy (segments_of path) = [] ->
  sanitize_path path = "file.md".
Proof.
  intros E. rewrite sanitize_path_parts. unfold sanitized_parts.
  now rewrite E.
Qed.

Lemma sanitize_path_leading_sep (path : string) :
  sanitize_path (os_sep ++ path) = sanitize_path path.
Proof.
  rewrite !sanitize_path_parts. unfold sanitized_parts, segments_of, os_sep.
  cbn [append PyStr.split]. rewrite Ascii.eqb_refl. reflexivity.
Qed.

(** Text over the class that is appended to a path stays at the end
    of the sanitised path. *)
Lemma sanitize_path_md (q : string) :
  exists stem, sanitize_path (q ++ ".md") = stem ++ ".md".
Proof.
  rewrite sanitize_path_parts. unfold sanitized_parts.
  rewrite (split_append_no_sep q ".md") by reflexivity.
  rewrite filter_app, map_app. cbn [filter].
  rewrite truthy_append_r by reflexivity. cbn [List.map].
  rewrite re_sub_unsafe_append.
  change (re_sub_unsafe ".md") with ".md".
  set (dirs := List.map re_sub_unsafe _).
  set (name := re_sub_unsafe _).
  destruct (dirs ++ [(name ++ ".md")%string])%list eqn:E.
  - now destruct dirs.
  - rewrite <- E, path_of_segments_snoc, <- append_assoc. eauto.
Qed.

(** C5: [sanitize_path] is the algorithm of the specification (split,
    drop the empty segments, replace every character outside
    [[A-Za-z0-9._-]] by ['_'] position by position, drop what became
    empty, rejoin, fallback), every segment of its result matches
    [[A-Za-z0-9._-]+], and the documented example holds. *)
Theorem sanitize_path_algorithm (path : string) :
  sanitize_path path = spec_sanitizePath path
  /\ Forall (fun s => safe_segment s = true) (segments_of (sanitize_path path))
  /\ (forall c : ascii, safe_char c = true <-> In c class_chars)
  /\ (forall (part : string) (i : nat) (c : ascii),
        String.get i part = Some c ->
        String.get i (re_sub_unsafe part)
        = Some (if safe_char c then c else "_"%char))
  /\ (forall part : string,
        String.length (re_sub_unsafe part) = String.length part)
  /\ sanitize_path "docs@example.com/api#v1/index.md"
     = "docs_example.com/api_v1/index.md".
Proof.
  split; [apply sanitize_path_spec|].
  split; [apply sanitize_path_segments_safe|].
  split; [apply safe_char_class|].
  split; [apply re_sub_unsafe_get|].
  split; [apply re_sub_unsafe_length | reflexivity].
Qed.

Lemma sanitize_path_algorithm_witness :
  String.get 4 (re_sub_unsafe "docs@example.com") = Some "_"%char.
Proof.
  apply (proj1 (proj2 (proj2 (proj2 (sanitize_path_algorithm ""))))
           "docs@example.com" 4 "@"%char).
  reflexivity.
Defined.

(** C6: [sanitize_path] returns for every string, and what it returns
    is a non-empty path of non-empty safe segments; when no segment
    survives, as for the empty string or a string of separators, the
    result is ["file.md"]; a leading separator is dropped. *)
Theorem sanitize_path_total (path : string) :
  (exists segs : list string,
      segs <> []
      /\ Forall (fun s => safe_segment s = true) segs
      /\ sanitize_path path = path_of_segments segs)
  /\ sanitize_path path <> ""
  /\ (filter PyStr.truthy (segments_of path) = [] ->
      sanitize_path path = "file.md")
  /\ (PyStr.all (Ascii.eqb sep_char) path = true ->
      sanitize_path path = "file.md")
  /\ sanitize_path (os_sep ++ path) = sanitize_path path
  /\ sanitize_path "" = "file.md"
  /\ sanitize_path "///" = "file.md"
  /\ sanitize_path "/absolute/path" = "absolute/path".
Proof.
  split; [apply sanitize_path_shape|].
  split.
  { destruct (sanitize_path_shape path) as [segs [NN [F ->]]].
    now apply path_of_segments_not_empty. }
  split; [apply sanitize_path_no_segment|].
  split.
  { intros A. now apply sanitize_path_no_segment, segments_of_separators. }
  split; [apply sanitize_path_leading_sep|].
  repeat split.
Qed.

Lemma sanitize_path_total_witness : sanitize_path "//" = "file.md".
Proof.
  apply (proj1 (proj2 (proj2 (proj2 (sanitize_path_total "//"))))).
  reflexivity.
Defined.

(** C7: [sanitize_path] is idempotent; in particular the fallback
    ["file.md"] is a fixed point. *)
Theorem sanitize_path_idempotent (path : string) :
  sanitize_path (sanitize_path path) = sanitize_path path
  /\ sanitize_path "file.md" = "file.md".
Proof.
  split; [|reflexivity].
  destruct (sanitize_path_shape path) as [segs [NN [F ->]]].
  now apply sanitize_path_safe_segments.
Qed.

(** C8: for every relative path [p], [html_to_md_path p] ends with
    [".md"], and so does [sanitize_path (html_to_md_path p)]. *)
Theorem md_suffix_survives_sanitization (p : string) :
  (exists stem, html_to_md_path p = stem ++ ".md")
  /\ (exists stem, sanitize_path (html_to_md_path p) = stem ++ ".md")
  /\ PyStr.endswith (html_to_md_path p) ".md" = true
  /\ PyStr.endswith (sanitize_path (html_to_md_path p)) ".md" = true.
Proof.
  assert (exists stem, html_to_md_path p = stem ++ ".md") as [q E]
    by (destruct (html_to_md_path_cases p) as [[stem [_ ->]]|[_ ->]]; eauto).
  pose proof (sanitize_path_md q) as [stem S]. rewrite <- E in S.
  split; [now exists q|]. split; [now exists stem|].
  split; apply endswith_iff; [now exists q | now exists stem].
Qed.

(** C9, as the code has it: when the input has a non-empty segment,
    the segments of the result are the non-empty input segments, in
    order, each with its unsafe characters replaced: none becomes
    empty, each keeps its length, and their number is unchanged. *)
Theorem sanitize_path_keeps_segments (path : string) :
  filter PyStr.truthy (segments_of path) <> [] ->
  segments_of (sanitize_path path)
  = List.map re_sub_unsafe (filter PyStr.truthy (segments_of path))
  /\ Forall2 (fun before after : string =>
                after = re_sub_unsafe before
                /\ after <> ""
                /\ String.length after = String.length before)
             (filter PyStr.truthy (segments_of path))
             (segments_of (sanitize_path path))
  /\ List.length (segments_of (sanitize_path path))
     = List.length (filter PyStr.truthy (segments_of path)).
Proof.
  intros NN. rewrite segments_of_sanitize_path. unfold sanitized_parts.
  set (kept := filter PyStr.truthy (segments_of path)) in *.
  assert (Forall (fun s => PyStr.truthy s = true) kept) as T.
  { apply Forall_forall. intros s I. now apply filter_In in I. }
  destruct (List.map re_sub_unsafe kept) eqn:E;
    [now destruct kept|]. rewrite <- E. clear E.
  split; [reflexivity|]. split; [|apply length_map].
  clear NN. induction T as [|part rest Hs _ IH]; constructor; [|exact IH].
  split; [reflexivity|]. split; [|apply re_sub_unsafe_length].
  apply truthy_iff. now rewrite re_sub_unsafe_truthy.
Qed.

Lemma sanitize_path_keeps_segments_witness :
  segments_of (sanitize_path "/docs@example.com//api#v1/index.md")
  = List.map re_sub_unsafe
      (filter PyStr.truthy
         (segments_of "/docs@example.com//api#v1/index.md")).
Proof.
  apply (sanitize_path_keeps_segments "/docs@example.com//api#v1/index.md").
  vm_compute. discriminate.
Defined.

(** C9 as stated fails on the empty path: it has no non-empty
    segment, and the result ["file.md"] has one segment. *)
Lemma sanitize_path_fallback_adds_segment :
  List.length (filter PyStr.truthy (segments_of "")) = 0
  /\ segments_of (sanitize_path "") = ["file.md"]
  /\ List.length (segments_of (sanitize_path ""))
     <> List.length (filter PyStr.truthy (segments_of "")).
Proof. repeat split. vm_compute. discriminate. Qed.

(** C10: a path made of non-empty segments over [[A-Za-z0-9._-]] is
    returned unchanged, and in any path such a segment is a segment
    of the result; [".."] is such a segment, so
    ["../secret/index.md"] is returned as it is, parent segment
    included. *)
Theorem sanitize_path_keeps_parent_segments (segs : list string) :
  segs <> [] ->
  Forall (fun s => safe_segment s = true) segs ->
  sanitize_path (path_of_segments segs) = path_of_segments segs
  /\ (forall path s : string,
        In s (segments_of path) -> safe_segment s = true ->
        In s (segments_of (sanitize_path path)))
  /\ safe_segment ".." = true
  /\ sanitize_path "../secret/index.md" = "../secret/index.md"
  /\ In ".." (segments_of (sanitize_path "../secret/index.md")).
Proof.
  intros NN F. split; [now apply sanitize_path_safe_segments|].
  split; [|repeat split; now left].
  intros path s I S. apply safe_segment_iff in S. destruct S as [T A].
  assert (In s (sanitized_parts path)) as K.
  { unfold sanitized_parts. rewrite <- (re_sub_unsafe_id s A).
    apply in_map, filter_In. now split. }
  rewrite segments_of_sanitize_path.
  now destruct (sanitized_parts path).
Qed.

Lemma sanitize_path_keeps_parent_segments_witness :
  sanitize_path (path_of_segments [".."; ".."; "etc"; "passwd.md"])
  = path_of_segments [".."; ".."; "etc"; "passwd.md"].
Proof.
  apply (sanitize_path_keeps_parent_segments
           [".."; ".."; "etc"; "passwd.md"]).
  - discriminate.
  - repeat constructor.
Defined.

End Sanitizer.

(** * The conversion loop: from a crawled file to its Markdown file *)

Section ConversionLoop.

Lemma append_inv_tail (s t u : string) : s ++ u = t ++ u -> s = t.
Proof.
  intros E. apply chars_inj. apply (f_equal list_ascii_of_string) in E.
  rewrite !chars_append in E. now apply app_inv_tail in E.
Qed.

Lemma append_inv_head (s t u : string) : u ++ s = u ++ t -> s = t.
Proof.
  induction u as [|c u IH]; simpl; intros E; [assumption | injection E; auto].
Qed.

Lemma append_empty_r (s : string) : s ++ "" = s.
Proof. induction s as [|c s IH]; simpl; [reflexivity | now rewrite IH]. Qed.

Lemma all_append (p : ascii -> bool) (s t : string) :
  PyStr.all p (s ++ t) = PyStr.all p s && PyStr.all p t.
Proof.
  induction s as [|c s IH]; simpl; [reflexivity|].
  now rewrite IH, andb_assoc.
Qed.

Lemma segments_of_split_last (path : string) :
  segments_of path
  = (removelast (segments_of path) ++ [last (segments_of path) ""])%list.
Proof. apply app_removelast_last, split_not_nil. Qed.

(** The kept segments of a path extended by non-empty text over the
    class: the text is appended to the last kept segment. *)
Lemma sanitized_parts_append (q t : string) :
  PyStr.truthy t = true -> PyStr.all safe_char t = true ->
  sanitized_parts (q ++ t)
  = (List.map re_sub_unsafe (filter PyStr.truthy (dir_prefix q))
     ++ [(re_sub_unsafe (last (segments_of q) "") ++ t)%string])%list.
Proof.
  intros T A. unfold sanitized_parts, dir_prefix.
  rewrite (split_append_no_sep q t (all_safe_no_sep t A)).
  rewrite filter_app, map_app. cbn [filter].
  rewrite (truthy_append_r _ t T). cbn [List.map].
  now rewrite re_sub_unsafe_append, (re_sub_unsafe_id t A).
Qed.

Lemma html_to_md_path_md (p : string) :
  exists q, html_to_md_path p = q ++ ".md".
Proof.
  destruct (html_to_md_path_cases p) as [[stem [_ ->]]|[_ ->]]; eauto.
Qed.

(** The join of non-empty segment sequences over the class is
    injective. *)
Lemma path_of_segments_inj (l1 l2 : list string) :
  l1 <> [] -> l2 <> [] ->
  Forall (fun s => safe_segment s = true) l1 ->
  Forall (fun s => safe_segment s = true) l2 ->
  path_of_segments l1 = path_of_segments l2 -> l1 = l2.
Proof.
  intros N1 N2 F1 F2 E. apply (f_equal segments_of) in E.
  now rewrite !segments_of_path in E by auto using safe_segments_no_sep.
Qed.

(** The result of [sanitize_path] is a relative path. *)
Lemma sanitize_path_relative (path : string) :
  PyStr.startswith (sanitize_path path) os_sep = false.
Proof.
  destruct (sanitize_path_shape path) as [segs [NN [F ->]]].
  destruct segs as [|a p]; [congruence|].
  inversion F as [|? ? Ha _]; subst. apply safe_segment_iff in Ha.
  destruct Ha as [Ta Sa]. apply all_safe_no_sep in Sa.
  destruct a as [|c a]; [discriminate|].
  apply no_sep_cons in Sa. destruct Sa as [Hc _].
  assert (exists rest, path_of_segments (String c a :: p) = String c rest)
    as [rest ->] by (unfold path_of_segments; destruct p; simpl; eauto).
  unfold PyStr.startswith, os_sep. cbn [prefix].
  destruct (ascii_dec sep_char c) as [E|_]; [now destruct Hc | reflexivity].
Qed.

(** Joining a separator-free name to a directory gives a non-empty
    path that ends with the name and not with the separator. *)
Lemma join_step_name (dir name : string) :
  PyStr.truthy name = true -> no_sep name = true ->
  (exists pre, join_step dir name = pre ++ name)
  /\ PyStr.truthy (join_step dir name) = true
  /\ PyStr.endswith (join_step dir name) os_sep = false.
Proof.
  intros T N. unfold join_step.
  rewrite (startswith_sep_false name T N).
  destruct (negb (PyStr.truthy dir) || PyStr.endswith dir os_sep).
  - split; [now exists dir|].
    split; [now apply truthy_append_r | now apply endswith_sep_false].
  - rewrite <- append_assoc.
    split; [now exists (dir ++ os_sep)|].
    split; [now apply truthy_append_r | now apply endswith_sep_false].
Qed.

(** Joining a relative path to such a directory puts it below the
    directory. *)
Lemma join_step_below (dir rel : string) :
  PyStr.truthy dir = true -> PyStr.endswith dir os_sep = false ->
  PyStr.startswith rel os_sep = false ->
  join_step dir rel = dir ++ os_sep ++ rel.
Proof. intros T E S. unfold join_step. now rewrite S, T, E. Qed.

(** The segments of the sanitised Markdown path: the kept directory
    segments, then a file name that ends with [".md"]. *)
Lemma md_rel_path_segments (rel_path : string) :
  exists q,
    html_to_md_path rel_path = q ++ ".md"
    /\ segments_of (md_rel_path rel_path)
       = (List.map re_sub_unsafe (filter PyStr.truthy (dir_prefix q))
          ++ [(re_sub_unsafe (last (segments_of q) "") ++ ".md")%string])%list.
Proof.
  destruct (html_to_md_path_md rel_path) as [q E]. exists q.
  split; [exact E|]. unfold md_rel_path.
  rewrite segments_of_sanitize_path, E.
  rewrite (sanitized_parts_append q ".md") by reflexivity.
  set (dirs := List.map re_sub_unsafe _).
  destruct (dirs ++ _)%list eqn:D; [now destruct dirs | reflexivity].
Qed.

Lemma md_path_closed_form (temp_dir rel_path : string) :
  md_path temp_dir rel_path
  = temp_md_dir temp_dir ++ os_sep ++ md_rel_path rel_path.
Proof.
  unfold md_path, temp_md_dir, os_path_join. cbn [fold_left].
  destruct (join_step_name temp_dir "markdown") as [_ [T E]];
    [reflexivity | reflexivity |].
  apply join_step_below; [exact T | exact E |].
  apply sanitize_path_relative.
Qed.

(** Splitting distributes over a separator. *)
Lemma segments_of_join (x y : string) :
  segments_of (x ++ os_sep ++ y) = (segments_of x ++ segments_of y)%list.
Proof.
  unfold segments_of. induction x as [|c x IH].
  - cbn [append os_sep PyStr.split]. now rewrite Ascii.eqb_refl.
  - cbn [append PyStr.split]. rewrite IH.
    pose proof (split_not_nil sep_char x) as NN.
    destruct (PyStr.split sep_char x) as [|h tl]; [contradiction|].
    now destruct (Ascii.eqb c sep_char).
Qed.

Lemma last_segment_join (x y : string) :
  last (segments_of (x ++ os_sep ++ y)) "" = last (segments_of y) "".
Proof.
  rewrite segments_of_join, (segments_of_split_last y), app_assoc.
  now rewrite !last_last.
Qed.

(** X1: in the conversion loop [sanitize_path] never takes its
    fallback branch: called on the result of [html_to_md_path], its
    loop always leaves a segment in [sanitized_parts], the last of
    which ends with [".md"]. *)
Theorem conversion_never_uses_fallback (rel_path : string) :
  sanitize_loop (PyStr.split sep_char (html_to_md_path rel_path)) [] <> []
  /\ (exists stem,
        last (sanitize_loop (PyStr.split sep_char (html_to_md_path rel_path)) [])
             "" = stem ++ ".md")
  /\ md_rel_path rel_path
     = path_of_segments
         (sanitize_loop (PyStr.split sep_char (html_to_md_path rel_path)) []).
Proof.
  rewrite sanitize_loop_spec. cbn [app].
  fold (segments_of (html_to_md_path rel_path)).
  fold (sanitized_parts (html_to_md_path rel_path)).
  unfold md_rel_path. rewrite sanitize_path_parts.
  destruct (html_to_md_path_md rel_path) as [q ->].
  rewrite (sanitized_parts_append q ".md") by reflexivity.
  set (dirs := List.map re_sub_unsafe _).
  set (name := re_sub_unsafe _).
  split; [now destruct dirs|].
  split; [exists name; apply last_last|].
  destruct (dirs ++ [(name ++ ".md")%string])%list eqn:E;
    [now destruct dirs | reflexivity].
Qed.

(** X2: for every temporary directory and every crawled file, the
    Markdown file is written below the Markdown directory: [md_path]
    is [temp_md_dir], a separator, and the sanitised relative path,
    which never starts with a separator, so that [os.path.join] never
    discards [temp_md_dir]. *)
Theorem md_path_below_temp_md_dir (temp_dir rel_path : string) :
  md_path temp_dir rel_path
  = temp_md_dir temp_dir ++ os_sep ++ md_rel_path rel_path
  /\ PyStr.startswith (md_rel_path rel_path) os_sep = false
  /\ exists pre, temp_md_dir temp_dir = pre ++ "markdown".
Proof.
  split; [apply md_path_closed_form|].
  split; [apply sanitize_path_relative|].
  now destruct (join_step_name temp_dir "markdown") as [P _].
Qed.

(** X3: the file name of every Markdown file the conversion loop
    writes (the last segment of its path) passes the test
    [file.endswith(".md")] of the copy loop of
    [generate_skill_structure]. *)
Theorem written_files_are_copied (temp_dir rel_path : string) :
  is_markdown_file (last (segments_of (md_path temp_dir rel_path)) "") = true.
Proof.
  rewrite md_path_closed_form, last_segment_join.
  destruct (md_rel_path_segments rel_path) as [q [_ ->]].
  rewrite last_last. apply endswith_append.
Qed.

Lemma md_rel_path_parts (rel_path : string) :
  md_rel_path rel_path
  = path_of_segments (sanitized_parts (html_to_md_path rel_path)).
Proof.
  unfold md_rel_path. rewrite sanitize_path_parts.
  destruct (html_to_md_path_md rel_path) as [q ->].
  rewrite (sanitized_parts_append q ".md") by reflexivity.
  set (dirs := List.map re_sub_unsafe _).
  destruct (dirs ++ _)%list eqn:D; [now destruct dirs | reflexivity].
Qed.

Lemma sanitized_parts_not_nil (q t : string) :
  PyStr.truthy t = true -> PyStr.all safe_char t = true ->
  sanitized_parts (q ++ t) <> [].
Proof.
  intros T A. rewrite (sanitized_parts_append q t T A).
  now destruct (List.map re_sub_unsafe _).
Qed.

(** The kept segments of [stem.md] and of [stem.html] determine each
    other. *)
Lemma sanitized_parts_md_html (s1 s2 : string) :
  sanitized_parts (s1 ++ ".md") = sanitized_parts (s2 ++ ".md")
  <-> sanitized_parts (s1 ++ ".html") = sanitized_parts (s2 ++ ".html").
Proof.
  rewrite !(sanitized_parts_append _ ".md"),
          !(sanitized_parts_append _ ".html") by reflexivity.
  split; intros E; apply app_inj_tail in E; destruct E as [-> E];
    apply append_inv_tail in E; now rewrite E.
Qed.

(** X4: two crawled [.html] files are written to the same Markdown
    path exactly when their non-empty segments, after replacement of
    the unsafe characters, are the same sequence. *)
Theorem md_rel_path_collision (p1 p2 : string) :
  PyStr.endswith p1 ".html" = true ->
  PyStr.endswith p2 ".html" = true ->
  md_rel_path p1 = md_rel_path p2
  <-> List.map re_sub_unsafe (filter PyStr.truthy (segments_of p1))
      = List.map re_sub_unsafe (filter PyStr.truthy (segments_of p2)).
Proof.
  intros E1 E2. apply endswith_iff in E1, E2.
  destruct E1 as [s1 ->], E2 as [s2 ->].
  fold (sanitized_parts (s1 ++ ".html")) (sanitized_parts (s2 ++ ".html")).
  rewrite <- sanitized_parts_md_html, !md_rel_path_parts, !html_to_md_path_html.
  split; [|now intros ->].
  apply path_of_segments_inj;
    auto using sanitized_parts_safe, sanitized_parts_not_nil.
Qed.

Lemma md_rel_path_collision_witness :
  md_rel_path "docs/a b.html" = md_rel_path "docs//a@b.html".
Proof.
  apply (md_rel_path_collision "docs/a b.html" "docs//a@b.html");
    reflexivity.
Defined.

(** A path whose segments are non-empty and over the class keeps that
    property through [html_to_md_path]. *)
Lemma html_to_md_path_safe_segments (p : string) :
  Forall (fun s => safe_segment s = true) (segments_of p) ->
  Forall (fun s => safe_segment s = true) (segments_of (html_to_md_path p)).
Proof.
  assert (forall q t u : string,
             PyStr.all safe_char u = true -> PyStr.truthy u = true ->
             Forall (fun s => safe_segment s = true)
                    (removelast (segments_of q)
                     ++ [(last (segments_of q) "" ++ t)%string]) ->
             Forall (fun s => safe_segment s = true)
                    (removelast (segments_of q)
                     ++ [(last (segments_of q) "" ++ u)%string])) as K.
  { intros q t u Au Tu F. apply Forall_app in F. destruct F as [F1 F2].
    apply Forall_app. split; [exact F1|]. constructor; [|constructor].
    inversion F2 as [|? ? H _]; subst. apply safe_segment_iff in H.
    destruct H as [_ H]. rewrite all_append, andb_true_iff in H.
    apply safe_segment_iff. split; [now apply truthy_append_r|].
    rewrite all_append, andb_true_iff. now split. }
  destruct (html_to_md_path_cases p) as [[stem [-> ->]]|[_ ->]]; intros F.
  - rewrite (split_append_no_sep stem ".html") in F by reflexivity.
    rewrite (split_append_no_sep stem ".md") by reflexivity.
    now apply (K stem ".html" ".md").
  - rewrite (split_append_no_sep p ".md") by reflexivity.
    apply (K p "" ".md"); [reflexivity | reflexivity |].
    rewrite (segments_of_split_last p) in F.
    apply Forall_app in F. destruct F as [F1 F2].
    apply Forall_app. split; [exact F1|].
    inversion F2 as [|? ? H _]; subst. constructor; [|constructor].
    now rewrite append_empty_r.
Qed.

(** X5: when every segment of the relative path is non-empty and over
    [[A-Za-z0-9._-]], sanitising changes nothing: the Markdown path is
    the result of [html_to_md_path] itself. *)
Theorem md_rel_path_of_safe_path (rel_path : string) :
  Forall (fun s => safe_segment s = true) (segments_of rel_path) ->
  md_rel_path rel_path = html_to_md_path rel_path.
Proof.
  intros F. apply html_to_md_path_safe_segments in F. unfold md_rel_path.
  rewrite <- (path_of_segments_of (html_to_md_path rel_path)).
  apply sanitize_path_safe_segments; [apply split_not_nil | exact F].
Qed.

Lemma md_rel_path_of_safe_path_witness :
  md_rel_path "docs.pay.jp/v1/cardtoken.html"
  = html_to_md_path "docs.pay.jp/v1/cardtoken.html".
Proof.
  apply (md_rel_path_of_safe_path "docs.pay.jp/v1/cardtoken.html").
  repeat constructor.
Defined.

Lemma sanitized_parts_of_safe_path (p : string) :
  Forall (fun s => safe_segment s = true) (segments_of p) ->
  sanitized_parts p = segments_of p.
Proof.
  intros F. unfold sanitized_parts.
  assert (filter PyStr.truthy (segments_of p) = segments_of p) as ->.
  { apply forallb_filter_id, forallb_forall. intros s I.
    rewrite Forall_forall in F. apply F in I.
    now apply safe_segment_iff in I. }
  rewrite <- (map_id (segments_of p)) at 2. apply map_ext_in. intros s I.
  rewrite Forall_forall in F. apply F in I.
  apply safe_segment_iff in I. now apply re_sub_unsafe_id.
Qed.

(** X6: no collision among safe paths: two distinct crawled [.html]
    files whose segments are all non-empty and over the class are
    written to distinct Markdown paths. *)
Theorem md_rel_path_injective_on_safe_paths (p1 p2 : string) :
  PyStr.endswith p1 ".html" = true ->
  PyStr.endswith p2 ".html" = true ->
  Forall (fun s => safe_segment s = true) (segments_of p1) ->
  Forall (fun s => safe_segment s = true) (segments_of p2) ->
  p1 <> p2 ->
  md_rel_path p1 <> md_rel_path p2.
Proof.
  intros E1 E2 F1 F2 N E. apply N. apply endswith_iff in E1, E2.
  destruct E1 as [s1 ->], E2 as [s2 ->].
  rewrite !md_rel_path_parts, !html_to_md_path_html in E.
  apply path_of_segments_inj in E;
    auto using sanitized_parts_safe, sanitized_parts_not_nil.
  apply sanitized_parts_md_html in E.
  rewrite !sanitized_parts_of_safe_path in E by assumption.
  rewrite <- (path_of_segments_of (s1 ++ ".html")), E.
  apply path_of_segments_of.
Qed.

Lemma md_rel_path_injective_on_safe_paths_witness :
  md_rel_path "example.com/index.html" <> md_rel_path "example.com/a/index.html".
Proof.
  apply (md_rel_path_injective_on_safe_paths
           "example.com/index.html" "example.com/a/index.html");
    try reflexivity; try discriminate; repeat constructor.
Defined.

(** The path without a trailing [".html"], shared by
    [html_to_md_path] and by the URL code of [main]. *)
Lemma md_path_and_url_stem (p : string) :
  exists x,
    html_to_md_path p = x ++ ".md"
    /\ (forall scheme,
          source_url scheme p = scheme_or_default scheme ++ "://" ++ x)
    /\ (p = x ++ ".html"
        \/ (p = x /\ PyStr.endswith p ".html" = false)).
Proof.
  destruct (PyStr.endswith p ".html") eqn:E.
  - apply endswith_iff in E. destruct E as [x ->]. exists x.
    split; [apply html_to_md_path_html|].
    split; [intros; apply source_url_html | now left].
  - exists p. pose proof E as N. rewrite endswith_false in N.
    split; [now apply html_to_md_path_other|].
    split; [intros; now apply source_url_other | now right].
Qed.

(** X7: [html_to_md_path] and the URL code strip the same suffix: two
    relative paths get the same Markdown path exactly when they get
    the same source URL. *)
Theorem same_md_path_iff_same_source_url (scheme p1 p2 : string) :
  html_to_md_path p1 = html_to_md_path p2
  <-> source_url scheme p1 = source_url scheme p2.
Proof.
  destruct (md_path_and_url_stem p1) as [x1 [M1 [U1 _]]].
  destruct (md_path_and_url_stem p2) as [x2 [M2 [U2 _]]].
  rewrite M1, M2, U1, U2. split; intros E.
  - apply append_inv_tail in E. now subst.
  - do 2 apply append_inv_head in E. now subst.
Qed.

(** X8: the collisions of [html_to_md_path]: two paths get the same
    Markdown path exactly when they are equal or one is the other
    followed by [".html"], the other not ending with [".html"]
    (["page"] and ["page.html"]); on paths that end with [".html"], as
    the files of the conversion loop do, it is injective. *)
Theorem html_to_md_path_collisions (p1 p2 : string) :
  (html_to_md_path p1 = html_to_md_path p2
   <-> p1 = p2
       \/ (p1 = p2 ++ ".html" /\ PyStr.endswith p2 ".html" = false)
       \/ (p2 = p1 ++ ".html" /\ PyStr.endswith p1 ".html" = false))
  /\ (PyStr.endswith p1 ".html" = true -> PyStr.endswith p2 ".html" = true ->
      html_to_md_path p1 = html_to_md_path p2 -> p1 = p2).
Proof.
  assert (html_to_md_path p1 = html_to_md_path p2
          <-> p1 = p2
              \/ (p1 = p2 ++ ".html" /\ PyStr.endswith p2 ".html" = false)
              \/ (p2 = p1 ++ ".html" /\ PyStr.endswith p1 ".html" = false))
    as K.
  { split.
    - destruct (md_path_and_url_stem p1) as [x1 [M1 [_ C1]]].
      destruct (md_path_and_url_stem p2) as [x2 [M2 [_ C2]]].
      rewrite M1, M2. intros E. apply append_inv_tail in E. subst x2.
      destruct C1 as [->|[-> N1]], C2 as [->|[-> N2]]; auto.
    - intros [->|[[-> N]|[-> N]]]; [reflexivity | |].
      + rewrite endswith_false in N.
        now rewrite html_to_md_path_html, html_to_md_path_other.
      + rewrite endswith_false in N.
        now rewrite html_to_md_path_html, html_to_md_path_other.
  }
  split; [exact K|].
  intros E1 E2 E. apply K in E.
  destruct E as [E|[[_ N]|[_ N]]]; [exact E | congruence | congruence].
Qed.

Lemma html_to_md_path_collisions_witness :
  "a/page.html" = "a/page.html".
Proof.
  apply (proj2 (html_to_md_path_collisions "a/page.html" "a/page.html"));
    reflexivity.
Defined.

(** *** The sanitizer and the extension rule commute *)

Lemma map_append_inv (f : ascii -> ascii) (l s t : string) :
  PyStr.map f l = s ++ t ->
  exists a b, l = a ++ b /\ PyStr.map f a = s /\ PyStr.map f b = t.
Proof.
  revert l; induction s as [|c s IH]; intros l E.
  - now exists "", l.
  - destruct l as [|d l]; [discriminate|]. simpl in E.
    injection E as Ec E. destruct (IH l E) as [a [b [-> [Ea Eb]]]].
    exists (String d a), b. simpl. now rewrite Ea, Ec.
Qed.

Lemma replace_unsafe_inv (d c : ascii) :
  replace_unsafe d = c -> c <> "_"%char -> d = c.
Proof.
  unfold replace_unsafe. destruct (safe_char d); [auto|].
  intros <- N. now destruct N.
Qed.

(** Replacement neither creates nor destroys a suffix [".html"]. *)
Lemma re_sub_unsafe_html_inv (l stem' : string) :
  re_sub_unsafe l = stem' ++ ".html" -> exists stem, l = stem ++ ".html".
Proof.
  intros E. apply map_append_inv in E. destruct E as [a [b [-> [_ Eb]]]].
  exists a. f_equal.
  repeat (destruct b as [|? b]; [discriminate Eb|];
          simpl in Eb; injection Eb as Ec Eb;
          apply replace_unsafe_inv in Ec; [subst | discriminate]).
  destruct b; [reflexivity | discriminate].
Qed.

(** The sanitised form of a path extended by text over the class. *)
Lemma sanitize_path_append (q t : string) :
  PyStr.truthy t = true -> PyStr.all safe_char t = true ->
  sanitize_path (q ++ t)
  = path_of_segments
      (List.map re_sub_unsafe (filter PyStr.truthy (dir_prefix q)) ++ [""])
    ++ re_sub_unsafe (last (segments_of q) "") ++ t.
Proof.
  intros T A. rewrite sanitize_path_parts.
  pose proof (sanitized_parts_not_nil q t T A) as NN.
  rewrite (sanitized_parts_append q t T A) in *.
  rewrite <- path_of_segments_snoc.
  now destruct (_ ++ _)%list.
Qed.

(** The sanitised form of a path whose final segment is not empty. *)
Lemma sanitize_path_named (p : string) :
  PyStr.truthy (last (segments_of p) "") = true ->
  sanitize_path p
  = path_of_segments
      (List.map re_sub_unsafe (filter PyStr.truthy (dir_prefix p))
       ++ [re_sub_unsafe (last (segments_of p) "")]).
Proof.
  intros T. rewrite sanitize_path_parts. unfold sanitized_parts, dir_prefix.
  rewrite (segments_of_split_last p) at 1.
  rewrite filter_app, map_app. cbn [filter]. rewrite T. cbn [List.map].
  now destruct (_ ++ _)%list eqn:E; [destruct (List.map _ _) in E|].
Qed.

(** X9: the path sanitizer and the extension rule commute on every
    path whose final segment is not empty: sanitising the Markdown
    path, as [main] does, gives the Markdown path of the sanitised
    path. *)
Theorem sanitize_path_commutes_with_html_to_md_path (p : string) :
  PyStr.truthy (last (segments_of p) "") = true ->
  sanitize_path (html_to_md_path p) = html_to_md_path (sanitize_path p).
Proof.
  intros T. destruct (html_to_md_path_cases p) as [[stem [-> ->]]|[N ->]].
  - rewrite !sanitize_path_append by reflexivity.
    rewrite <- !append_assoc. now rewrite html_to_md_path_html.
  - rewrite (sanitize_path_append p ".md") by reflexivity.
    rewrite (sanitize_path_named p T).
    rewrite html_to_md_path_other.
    + rewrite (path_of_segments_snoc _ (re_sub_unsafe _)).
      now rewrite !append_assoc.
    + intros pre E. apply html_suffix_in_final_segment in E.
      destruct E as [stem' E]. apply re_sub_unsafe_html_inv in E.
      destruct E as [stem E]. apply (N (path_of_segments (dir_prefix p ++ [""]) ++ stem)).
      rewrite append_assoc, <- E, <- path_of_segments_snoc.
      unfold dir_prefix. rewrite <- segments_of_split_last.
      symmetry. apply path_of_segments_of.
Qed.

Lemma sanitize_path_commutes_with_html_to_md_path_witness :
  sanitize_path (html_to_md_path "docs@example.com//api#v1/index.html")
  = html_to_md_path (sanitize_path "docs@example.com//api#v1/index.html").
Proof.
  apply (sanitize_path_commutes_with_html_to_md_path
           "docs@example.com//api#v1/index.html").
  reflexivity.
Defined.

(** *** [os.path.join] on segments some of which are empty *)

(** One step of the join, from a path that is the join of the
    non-empty segments seen so far, followed by a separator when
    [trailing] is set. *)
Lemma join_step_mixed (kept : list string) (trailing : bool) (b : string) :
  Forall (fun s => safe_segment s = true) kept ->
  (trailing = true -> kept <> []) ->
  b = "" \/ safe_segment b = true ->
  exists trailing' : bool,
    (trailing' = true -> (kept ++ filter PyStr.truthy [b])%list <> [])
    /\ (safe_segment b = true -> trailing' = false)
    /\ join_step (path_of_segments kept ++ (if trailing then os_sep else "")) b
       = path_of_segments (kept ++ filter PyStr.truthy [b])
         ++ (if trailing' then os_sep else "").
Proof.
  intros F NT [->|Sb].
  - cbn [filter PyStr.truthy]. rewrite app_nil_r. unfold join_step.
    change (PyStr.startswith "" os_sep) with false. cbv iota.
    destruct trailing.
    + exists true. split; [exact NT|]. split; [discriminate|].
      rewrite endswith_append, orb_true_r. apply append_empty_r.
    + rewrite append_empty_r. destruct kept as [|k kept].
      * exists false. repeat split; discriminate.
      * exists true. split; [discriminate|]. split; [discriminate|].
        pose proof (path_of_segments_not_empty (k :: kept)) as NE.
        apply truthy_iff in NE; [|discriminate|exact F]. rewrite NE.
        destruct (exists_last (l := k :: kept)) as [init [z E]];
          [discriminate|].
        rewrite E in F |- *. apply Forall_app in F. destruct F as [_ Fz].
        inversion Fz as [|? ? Hz _]; subst. apply safe_segment_iff in Hz.
        destruct Hz as [Tz Az]. rewrite path_of_segments_snoc.
        rewrite (endswith_sep_false _ z Tz (all_safe_no_sep z Az)).
        reflexivity.
  - exists false. split; [discriminate|]. split; [reflexivity|].
    pose proof Sb as Sb'. apply safe_segment_iff in Sb'.
    destruct Sb' as [Tb Ab]. pose proof (all_safe_no_sep b Ab) as Nb.
    cbn [filter]. rewrite Tb, !append_empty_r. unfold join_step.
    rewrite (startswith_sep_false b Tb Nb).
    destruct trailing.
    + rewrite endswith_append, orb_true_r.
      rewrite path_of_segments_snoc, path_of_dir by auto. reflexivity.
    + rewrite append_empty_r. destruct kept as [|k kept]; [reflexivity|].
      pose proof (path_of_segments_not_empty (k :: kept)) as NE.
      apply truthy_iff in NE; [|discriminate|exact F]. rewrite NE.
      destruct (exists_last (l := k :: kept)) as [init [z E]];
        [discriminate|].
      rewrite E in F |- *. pose proof F as F'.
      apply Forall_app in F'. destruct F' as [_ Fz].
      inversion Fz as [|? ? Hz _]; subst. apply safe_segment_iff in Hz.
      destruct Hz as [Tz Az].
      rewrite (path_of_segments_snoc init z) at 1.
      rewrite (endswith_sep_false _ z Tz (all_safe_no_sep z Az)).
      cbn [negb orb].
      rewrite (path_of_segments_snoc (init ++ [z]) b), path_of_dir
        by now destruct init.
      now rewrite !append_assoc.
Qed.

Lemma fold_join_step_mixed (p : list string) :
  Forall (fun s => s = "" \/ safe_segment s = true) p ->
  exists trailing : bool,
    (trailing = true -> filter PyStr.truthy p <> [])
    /\ (safe_segment (last p "") = true -> trailing = false)
    /\ fold_left join_step p ""
       = path_of_segments (filter PyStr.truthy p)
         ++ (if trailing then os_sep else "").
Proof.
  induction p as [|b p IH] using rev_ind; intros F.
  - exists false. repeat split; discriminate.
  - apply Forall_app in F. destruct F as [Fp Fb].
    inversion Fb as [|? ? Hb _]; subst.
    destruct (IH Fp) as [tr [NT [_ E]]].
    rewrite fold_left_app. cbn [fold_left]. rewrite E, filter_app.
    destruct (join_step_mixed (filter PyStr.truthy p) tr b)
      as [tr' [NT' [S' E']]]; [|exact NT|exact Hb|].
    + apply Forall_forall. intros s I. apply filter_In in I.
      destruct I as [I T]. rewrite Forall_forall in Fp.
      destruct (Fp s I) as [->|H]; [discriminate T | exact H].
    + exists tr'. split; [exact NT'|]. split; [|exact E'].
      rewrite last_last. exact S'.
Qed.

(** [os.path.join] on segments that are empty or non-empty over the
    class, the last one not empty: the join of the non-empty ones. *)
Lemma os_path_join_mixed (a : string) (p : list string) :
  Forall (fun s => s = "" \/ safe_segment s = true) (a :: p) ->
  safe_segment (last (a :: p) "") = true ->
  os_path_join a p = path_of_segments (filter PyStr.truthy (a :: p)).
Proof.
  intros F L. destruct (fold_join_step_mixed (a :: p) F) as [tr [_ [S E]]].
  rewrite (S L), append_empty_r in E. rewrite <- E.
  unfold os_path_join. cbn [fold_left]. f_equal.
  inversion F as [|? ? Ha _]; subst. unfold join_step.
  destruct Ha as [->|Ha]; [reflexivity|].
  apply safe_segment_iff in Ha. destruct Ha as [Ta Aa].
  now rewrite (startswith_sep_false a Ta (all_safe_no_sep a Aa)).
Qed.

(** X10: the pipeline written out in [test_integration.py], which
    replaces the characters of every segment without skipping the
    empty ones, computes for every relative path the Markdown path
    that [main] computes with [html_to_md_path] and [sanitize_path]. *)
Theorem inline_md_rel_path_agrees (rel_path : string) :
  inline_md_rel_path rel_path = md_rel_path rel_path.
Proof.
  unfold inline_md_rel_path. fold (html_to_md_path rel_path).
  fold (segments_of (html_to_md_path rel_path)).
  rewrite md_rel_path_parts. unfold sanitized_parts.
  destruct (html_to_md_path_md rel_path) as [q ->].
  assert (forall l, filter PyStr.truthy (List.map re_sub_unsafe l)
                    = List.map re_sub_unsafe (filter PyStr.truthy l)) as C.
  { induction l as [|x l IH]; [reflexivity|]. cbn [List.map filter].
    rewrite re_sub_unsafe_truthy. destruct (PyStr.truthy x); cbn [List.map];
      now rewrite IH. }
  rewrite <- C.
  assert (Forall (fun s => s = "" \/ safe_segment s = true)
                 (List.map re_sub_unsafe (segments_of (q ++ ".md")))) as F.
  { apply Forall_map, Forall_forall. intros x _.
    destruct x as [|c x]; [now left|]. right.
    now apply re_sub_unsafe_safe_segment. }
  assert (safe_segment
            (last (List.map re_sub_unsafe (segments_of (q ++ ".md"))) "")
          = true) as L.
  { rewrite (split_append_no_sep q ".md") by reflexivity.
    rewrite map_app. cbn [List.map]. rewrite last_last.
    apply re_sub_unsafe_safe_segment. now apply truthy_append_r. }
  destruct (List.map re_sub_unsafe (segments_of (q ++ ".md"))) as [|a p] eqn:E.
  - apply map_eq_nil in E. now apply split_not_nil in E.
  - now apply os_path_join_mixed.
Qed.

(** *** Lengths *)

Lemma length_path_of_segments_cons (x : string) (segs : list string) :
  segs <> [] ->
  String.length (path_of_segments (x :: segs))
  = String.length x + 1 + String.length (path_of_segments segs).
Proof.
  intros NN. rewrite path_of_segments_cons, !length_append by exact NN.
  simpl. lia.
Qed.

Lemma length_sanitized_segments (segs : list string) :
  String.length
    (path_of_segments (List.map re_sub_unsafe (filter PyStr.truthy segs)))
  <= String.length (path_of_segments segs).
Proof.
  induction segs as [|x segs IH]; [reflexivity|].
  destruct segs as [|y segs].
  - destruct x; cbn [filter PyStr.truthy List.map]; [apply Nat.le_0_l|].
    unfold path_of_segments. cbn [String.concat].
    now rewrite re_sub_unsafe_length.
  - rewrite (length_path_of_segments_cons x (y :: segs)) by discriminate.
    cbn [filter] in *. destruct (PyStr.truthy x); [|lia].
    cbn [List.map].
    destruct (List.map re_sub_unsafe _) as [|z rest] eqn:E.
    + unfold path_of_segments. cbn [String.concat].
      rewrite re_sub_unsafe_length. lia.
    + rewrite length_path_of_segments_cons, re_sub_unsafe_length
        by discriminate.
      lia.
Qed.

(** X11: [sanitize_path] never lengthens a path that has a non-empty
    segment (only the fallback can be longer than the input), and the
    Markdown path of a crawled file is at most three characters longer
    than its relative path. *)
Theorem sanitize_path_length (path : string) :
  (filter PyStr.truthy (segments_of path) <> [] ->
   String.length (sanitize_path path) <= String.length path)
  /\ String.length (md_rel_path path) <= String.length path + 3.
Proof.
  assert (forall x, filter PyStr.truthy (segments_of x) <> [] ->
                    String.length (sanitize_path x) <= String.length x) as K.
  { intros x NN. rewrite sanitize_path_parts. unfold sanitized_parts.
    rewrite <- (path_of_segments_of x) at 2.
    pose proof (length_sanitized_segments (segments_of x)) as L.
    destruct (List.map re_sub_unsafe _) eqn:E; [|exact L].
    apply map_eq_nil in E. contradiction. }
  split; [apply K|].
  unfold md_rel_path.
  assert (String.length (html_to_md_path path) <= String.length path + 3) as H.
  { destruct (html_to_md_path_cases path) as [[stem [-> ->]]|[_ ->]];
      rewrite !length_append; simpl; lia. }
  etransitivity; [apply K | exact H].
  destruct (html_to_md_path_md path) as [q ->].
  rewrite (split_append_no_sep q ".md") by reflexivity.
  rewrite filter_app. cbn [filter].
  rewrite truthy_append_r by reflexivity.
  intros E. apply app_eq_nil in E. destruct E as [_ E]. discriminate E.
Qed.

Lemma sanitize_path_length_witness :
  String.length (sanitize_path "/docs@example.com//api#v1/index.md")
  <= String.length "/docs@example.com//api#v1/index.md".
Proof.
  apply (proj1 (sanitize_path_length "/docs@example.com//api#v1/index.md")).
  vm_compute. discriminate.
Defined.

End ConversionLoop.

(** * The skill structure: where the copy loop writes *)

Section SkillStructure.

Lemma docs_dir_shape (output_base skill_name : string) :
  (exists pre, docs_dir output_base skill_name = pre ++ "docs")
  /\ PyStr.truthy (docs_dir output_base skill_name) = true
  /\ PyStr.endswith (docs_dir output_base skill_name) os_sep = false.
Proof.
  unfold docs_dir, os_path_join. cbn [fold_left].
  apply join_step_name; reflexivity.
Qed.

(** X12: the destination of a copied file is [docs_dir], a separator
    and the relative path whenever the relative path does not start
    with a separator, whatever [output_base] and [skill_name] are; a
    relative path that starts with a separator replaces [docs_dir]
    altogether, and a skill name that starts with a separator replaces
    [output_base]. *)
Theorem dst_path_below_docs_dir (output_base skill_name rel_path : string) :
  (PyStr.startswith rel_path os_sep = false ->
   dst_path output_base skill_name rel_path
   = docs_dir output_base skill_name ++ os_sep ++ rel_path)
  /\ (PyStr.startswith rel_path os_sep = true ->
      dst_path output_base skill_name rel_path = rel_path)
  /\ (PyStr.startswith skill_name os_sep = true ->
      skill_dir output_base skill_name = skill_name)
  /\ (exists pre, docs_dir output_base skill_name = pre ++ "docs")
  /\ docs_dir output_base skill_name <> scripts_dir output_base skill_name.
Proof.
  destruct (docs_dir_shape output_base skill_name) as [P [T E]].
  split; [|split; [|split; [|split; [exact P|]]]].
  - intros S. unfold dst_path, os_path_join. cbn [fold_left].
    now apply join_step_below.
  - intros S. unfold dst_path, os_path_join, join_step. cbn [fold_left].
    now rewrite S.
  - intros S. unfold skill_dir, os_path_join, join_step. cbn [fold_left].
    now rewrite S.
  - unfold docs_dir, scripts_dir, os_path_join, join_step. cbn [fold_left].
    change (PyStr.startswith "docs" os_sep) with false.
    change (PyStr.startswith "scripts" os_sep) with false. cbv iota.
    destruct (negb _ || _); intros D.
    + apply append_inv_head in D. discriminate.
    + do 2 apply append_inv_head in D. discriminate.
Qed.

Lemma dst_path_below_docs_dir_witness :
  dst_path ".claude/skills" "payjp" "docs.pay.jp/v1/cardtoken.md"
  = docs_dir ".claude/skills" "payjp" ++ os_sep ++ "docs.pay.jp/v1/cardtoken.md".
Proof.
  apply (proj1 (dst_path_below_docs_dir
                  ".claude/skills" "payjp" "docs.pay.jp/v1/cardtoken.md")).
  reflexivity.
Defined.

End SkillStructure.

(** * The documented examples *)

Section Examples.

(** The examples of the docstring of [sanitize_path] and the
    assertions of [test_sanitize_path]. *)
Example sanitize_path_examples :
  sanitize_path "docs.example.com/api/index.md" = "docs.example.com/api/index.md"
  /\ sanitize_path "docs@example.com/api#v1/index.md"
     = "docs_example.com/api_v1/index.md"
  /\ sanitize_path "" = "file.md"
  /\ sanitize_path "   " = "___"
  /\ sanitize_path "/absolute/path" = "absolute/path".
Proof. repeat split. Qed.

(** The examples of the docstring of [html_to_md_path]. *)
Example html_to_md_path_examples :
  html_to_md_path "docs/index.html" = "docs/index.md"
  /\ html_to_md_path "page.html" = "page.md"
  /\ html_to_md_path "docs/page" = "docs/page.md".
Proof. repeat split. Qed.

(** The crawl of [test_directory_structure_preserved]: five HTML
    files, five distinct Markdown paths. *)
Example conversion_loop_example :
  List.map (fun rel_path => sanitize_path (html_to_md_path rel_path))
           ["example.com/index.html"; "example.com/page.html";
            "example.com/a/index.html"; "example.com/a/another.html";
            "example.com/b/c/index.html"]
  = ["example.com/index.md"; "example.com/page.md";
     "example.com/a/index.md"; "example.com/a/another.md";
     "example.com/b/c/index.md"].
Proof. reflexivity. Qed.

End Examples.
